(** * The drink / food / order classes of [unittest.py]

    A shallow embedding of the three classes [Drink], [Food] and [Order]
    and of the Python runtime pieces they rely on (exceptions, insertion
    ordered dictionaries, [list.pop], the builtin [sum], binary64 floats),
    followed by the properties of the classes.

    Conventions.
    - A method is a function from the receiver's state to an outcome
      (a returned value or a raised exception) and the receiver's state
      afterwards.  A raise does not roll anything back: whatever was
      assigned before the [raise] statement stays assigned.
    - Python [float]s are the kernel's binary64 floats ([PrimFloat]); a
      decimal literal such as [2.30] denotes the nearest double both in
      Python and here.
    - Arguments documented as names (bases, flavors, food items, toppings)
      are [str] values; the index of [remove_item] is an [int].
    - An order refers to its items; every property below is about the
      items as they are when the order is called, so an order is the list
      of its items' current states. *)

From Stdlib Require Import ZArith PrimFloat Uint63.
From stdpp Require Import base decidable option list strings gmap.

Set Warnings "-inexact-float".
#[local] Open Scope Z_scope.

(** ** Python runtime *)

(** The exceptions the classes can raise, with their arguments. *)
Inductive exn : Type :=
  | ValueError (msg : string)
  | IndexError (msg : string)
  | KeyError (key : string).

(** What a call produces: a value, or an exception. *)
Inductive outcome (A : Type) : Type :=
  | Returns (a : A)
  | Raises (e : exn).
Arguments Returns {A} a.
Arguments Raises {A} e.

#[global] Instance outcome_ret : MRet outcome := λ A a, Returns a.
#[global] Instance outcome_bind : MBind outcome := λ A B k m,
  match m with
  | Returns a => k a
  | Raises e => Raises e
  end.

(** A method on an object whose state has type [S]. *)
Definition method (S A : Type) : Type := S → outcome A * S.

#[global] Instance method_ret {S} : MRet (method S) := λ A a self, (Returns a, self).
#[global] Instance method_bind {S} : MBind (method S) := λ A B k m self,
  match m self with
  | (Returns a, self') => k a self'
  | (Raises e, self') => (Raises e, self')
  end.

Definition this {S} : method S S := λ self, (Returns self, self).
Definition assign {S} (f : S → S) : method S unit := λ self, (Returns (), f self).
Definition raise {S A} (e : exn) : method S A := λ self, (Raises e, self).
Definition lift {S A} (o : outcome A) : method S A := λ self, (o, self).

(** [if c: body] with no [else]. *)
Definition when {S} (c : bool) (body : method S unit) : method S unit :=
  if c then body else mret ().

(** The result and the state after a call. *)
Definition result {S A} (m : method S A) (self : S) : outcome A := (m self).1.
Definition after {S A} (m : method S A) (self : S) : S := (m self).2.

(** [x in l] for a list [l] of strings. *)
Definition list_contains (l : list string) (x : string) : bool :=
  bool_decide (x ∈ l).

(** Dictionaries with string keys.  A Python [dict] iterates in insertion
    order, and assigning to a key that is present replaces the value and
    keeps the key's position, so a dictionary is its list of items. *)
Module Dict.
Section dict.
Context {V : Type}.

Definition t : Type := list (string * V).

Definition empty : t := [].

(** [k in d] *)
Fixpoint contains (d : t) (k : string) : bool :=
  match d with
  | [] => false
  | (k', _) :: d' => if decide (k' = k) then true else contains d' k
  end.

(** [d[k]] *)
Fixpoint getitem (d : t) (k : string) : outcome V :=
  match d with
  | [] => Raises (KeyError k)
  | (k', v) :: d' => if decide (k' = k) then Returns v else getitem d' k
  end.

(** [d[k] = v] *)
Fixpoint setitem (d : t) (k : string) (v : V) : t :=
  match d with
  | [] => [(k, v)]
  | (k', v') :: d' =>
      if decide (k' = k) then (k', v) :: d' else (k', v') :: setitem d' k v
  end.

(** [d.keys()] and [d.values()], in iteration order. *)
Definition keys (d : t) : list string := d.*1.
Definition values (d : t) : list V := d.*2.
End dict.
Arguments t V : clear implicits.
Arguments keys {V} d : simpl never.
Arguments values {V} d : simpl never.
End Dict.

(** [l.pop(index)]: a negative index counts from the end. *)
Definition pop {A} (l : list A) (index : Z) : outcome (A * list A) :=
  let n := Z.of_nat (length l) in
  let i := if index <? 0 then index + n else index in
  if (i <? 0) || (n <=? i) then Raises (IndexError "pop index out of range")
  else
    match l !! Z.to_nat i with
    | Some x => Returns (x, delete (Z.to_nat i) l)
    | None => Raises (IndexError "pop index out of range")
    end.

(** [for x in l: acc = body(acc, x)], where the body may raise. *)
Fixpoint for_loop {A B} (body : B → A → outcome B) (l : list A) (acc : B) : outcome B :=
  match l with
  | [] => Returns acc
  | x :: l' => acc' ← body acc x; for_loop body l' acc'
  end.

(** The builtin [sum] on floats: the items are added to the start value 0
    from left to right.  (CPython 3.12 and later add floats with a
    compensated sum, which for no item and for one item is the same
    value.) *)
Definition sum (l : list float) : float := fold_left PrimFloat.add l 0%float.

(** ** class Drink *)
Module Drink.
Record t : Type := mk { _base : option string; _flavors : gset string }.

Definition _valid_bases : list string :=
  ["water"; "sbrite"; "pokeacola"; "Mr. Salt"; "hill fog"; "leaf wine"]%string.
Definition _valid_flavors : list string :=
  ["lemon"; "cherry"; "strawberry"; "mint"; "blueberry"; "lime"]%string.

Definition __init__ : t := {| _base := None; _flavors := ∅ |}.

Definition add_base (base : string) : method t unit :=
  when (negb (list_contains _valid_bases base))
    (raise (ValueError ("Invalid base: " +:+ base))) ;;
  assign (λ self, {| _base := Some base; _flavors := _flavors self |}).

Definition get_base : method t (option string) :=
  self ← this; mret (_base self).

Definition add_flavor (flavor : string) : method t unit :=
  when (negb (list_contains _valid_flavors flavor))
    (raise (ValueError ("Invalid flavor: " +:+ flavor))) ;;
  self ← this;
  when (bool_decide (flavor ∈ _flavors self))
    (raise (ValueError ("Flavor '" +:+ flavor +:+ "' has already been added."))) ;;
  assign (λ self, {| _base := _base self; _flavors := _flavors self ∪ {[flavor]} |}).

Definition get_flavors : method t (list string) :=
  self ← this; mret (elements (_flavors self)).

(** The calls a client can make on a drink, and the drink afterwards,
    whether the call returned or raised. *)
Inductive call : Type :=
  | AddBase (base : string)
  | GetBase
  | AddFlavor (flavor : string)
  | GetFlavors.

Definition step (c : call) (self : t) : t :=
  match c with
  | AddBase base => after (add_base base) self
  | GetBase => after get_base self
  | AddFlavor flavor => after (add_flavor flavor) self
  | GetFlavors => after get_flavors self
  end.

(** The drinks a program can hold: a new one, or one it called. *)
Inductive reachable : t → Prop :=
  | reachable_new : reachable __init__
  | reachable_call c self : reachable self → reachable (step c self).

(** The drink after a sequence of calls, first call first. *)
Definition run (calls : list call) (self : t) : t :=
  fold_left (λ self c, step c self) calls self.
End Drink.

(** ** class Food *)
Module Food.
Record t : Type :=
  mk { _food_item : string; _base_price : float; _toppings : Dict.t float }.

Definition _valid_food_items : Dict.t float :=
  [ ("Hotdog", 2.30); ("Corndog", 2.00); ("Ice Cream", 3.00);
    ("Onion Rings", 1.75); ("French Fries", 1.50); ("Tater Tots", 1.70);
    ("Nacho Chips", 1.90) ]%string%float.
Definition _valid_toppings : Dict.t float :=
  [ ("Cherry", 0.00); ("Whipped Cream", 0.00); ("Caramel Sauce", 0.50);
    ("Chocolate Sauce", 0.50); ("Nacho Cheese", 0.30); ("Chili", 0.60);
    ("Bacon Bits", 0.30); ("Ketchup", 0.00); ("Mustard", 0.00) ]%string%float.

Arguments _valid_food_items : simpl never.
Arguments _valid_toppings : simpl never.

Definition __init__ (food_item : string) : outcome t :=
  if negb (Dict.contains _valid_food_items food_item)
  then Raises (ValueError ("Invalid food item: " +:+ food_item))
  else
    price ← Dict.getitem _valid_food_items food_item;
    mret {| _food_item := food_item; _base_price := price;
            _toppings := Dict.empty |}.

Definition add_topping (topping : string) : method t unit :=
  when (negb (Dict.contains _valid_toppings topping))
    (raise (ValueError ("Invalid topping: " +:+ topping))) ;;
  price ← lift (Dict.getitem _valid_toppings topping);
  assign (λ self, {| _food_item := _food_item self;
                     _base_price := _base_price self;
                     _toppings := Dict.setitem (_toppings self) topping price |}).

Definition get_toppings : method t (list string) :=
  self ← this; mret (Dict.keys (_toppings self)).

Definition get_price : method t float :=
  self ← this;
  mret (_base_price self + sum (Dict.values (_toppings self)))%float.

(** The calls a client can make on a food, and the food afterwards,
    whether the call returned or raised. *)
Inductive call : Type :=
  | AddTopping (topping : string)
  | GetToppings
  | GetPrice.

Definition step (c : call) (self : t) : t :=
  match c with
  | AddTopping topping => after (add_topping topping) self
  | GetToppings => after get_toppings self
  | GetPrice => after get_price self
  end.

(** The foods a program can hold: one whose construction returned, or
    one it called. *)
Inductive reachable : t → Prop :=
  | reachable_new food_item self :
      __init__ food_item = Returns self → reachable self
  | reachable_call c self : reachable self → reachable (step c self).

(** The food after a sequence of calls, first call first. *)
Definition run (calls : list call) (self : t) : t :=
  fold_left (λ self c, step c self) calls self.
End Food.

(** ** class Order *)

(** Objects that are instances of neither [Drink] nor [Food]. *)
Inductive object : Type :=
  | PyNone
  | PyInt (z : Z)
  | PyStr (s : string)
  | PyFloat (x : float).

Module Order.
(** What an order can hold: [add_item] stores whatever it is given. *)
Inductive item : Type :=
  | ADrink (d : Drink.t)
  | AFood (f : Food.t)
  | Other (o : object).

Record t : Type := mk { _items : list item }.

Definition __init__ : t := {| _items := [] |}.

Definition add_item (it : item) : method t unit :=
  assign (λ self, {| _items := _items self ++ [it] |}).

Definition remove_item (index : Z) : method t unit :=
  self ← this;
  when ((index <? 0) || (index >=? Z.of_nat (length (_items self))))
    (raise (IndexError "Invalid index.")) ;;
  popped ← lift (pop (_items self) index);
  assign (λ self, {| _items := popped.2 |}).

Definition get_num_items : method t nat :=
  self ← this; mret (length (_items self)).

(** One iteration of the loop of [get_total]. *)
Definition add_to_total (total : float) (it : item) : outcome float :=
  match it with
  | ADrink _ => Returns (total + 5.00)%float
  | AFood f => price ← result Food.get_price f; Returns (total + price)%float
  | Other _ => Returns total
  end.

Definition get_total : method t float :=
  self ← this; lift (for_loop add_to_total (_items self) 0.0%float).

(** What an item is charged: the flat price of a drink, the price of a
    food, nothing for anything else. *)
Definition charge (it : item) : option float :=
  match it with
  | ADrink _ => Some 5.00%float
  | AFood f =>
      match result Food.get_price f with
      | Returns price => Some price
      | Raises _ => None
      end
  | Other _ => None
  end.

(** The order after [add_item] was called with each of the items, the
    first one first. *)
Definition add_items (its : list item) (self : t) : t :=
  fold_left (λ self it, after (add_item it) self) its self.
End Order.

(** ** Invariants *)

(** What holds of every drink a program can hold: the base is unset or a
    valid base, and every flavor is a valid flavor. *)
Definition drink_invariant (self : Drink.t) : Prop :=
  (Drink._base self = None
   ∨ ∃ base, Drink._base self = Some base ∧ base ∈ Drink._valid_bases)
  ∧ ∀ flavor, flavor ∈ Drink._flavors self → flavor ∈ Drink._valid_flavors.

(** What holds of every food a program can hold: the item is on the menu
    and the stored base price is the menu's, the stored toppings are
    toppings of the topping table, each at most once and each with the
    table's price. *)
Definition food_invariant (self : Food.t) : Prop :=
  Dict.getitem Food._valid_food_items (Food._food_item self)
    = Returns (Food._base_price self)
  ∧ NoDup (Dict.keys (Food._toppings self))
  ∧ Forall (λ kv, Dict.getitem Food._valid_toppings kv.1 = Returns kv.2)
      (Food._toppings self).

(** ** Prices as decimals

    The reading of the price tables as exact decimals, to compare the
    floating-point prices with: amounts are whole cents, added as
    integers. *)
Module Decimal.
Definition food_items : Dict.t Z :=
  [ ("Hotdog", 230); ("Corndog", 200); ("Ice Cream", 300);
    ("Onion Rings", 175); ("French Fries", 150); ("Tater Tots", 170);
    ("Nacho Chips", 190) ]%string.
Definition toppings : Dict.t Z :=
  [ ("Cherry", 0); ("Whipped Cream", 0); ("Caramel Sauce", 50);
    ("Chocolate Sauce", 50); ("Nacho Cheese", 30); ("Chili", 60);
    ("Bacon Bits", 30); ("Ketchup", 0); ("Mustard", 0) ]%string.

Definition cents (table : Dict.t Z) (name : string) : Z :=
  match Dict.getitem table name with
  | Returns c => c
  | Raises _ => 0
  end.

(** The exact price of a food: its item's price plus its toppings'. *)
Definition get_price (self : Food.t) : Z :=
  cents food_items (Food._food_item self)
  + foldr Z.add 0 (cents toppings <$> Dict.keys (Food._toppings self)).

(** The double a decimal amount is written as: the one nearest to it
    (the quotient of two integers that are doubles is rounded once). *)
Definition to_float (amount : Z) : float :=
  (of_uint63 (Uint63.of_Z amount) / of_uint63 100)%float.
End Decimal.

(** * Properties *)

(** Unfolding of the method combinators. *)
Ltac run_method :=
  unfold result, after, when, raise, assign, this, lift,
    mbind, method_bind, outcome_bind, mret, method_ret, outcome_ret;
  cbn.

(** Closed decidable facts, by evaluation. *)
Ltac decide_closed := apply (bool_decide_unpack _); vm_compute; exact I.

Lemma list_contains_true l x : x ∈ l → list_contains l x = true.
Proof. intros. unfold list_contains. by apply bool_decide_eq_true. Qed.

Lemma list_contains_false l x : x ∉ l → list_contains l x = false.
Proof. intros. unfold list_contains. by apply bool_decide_eq_false. Qed.

(** ** Drink *)
Section drink.
Implicit Types (self : Drink.t) (base flavor : string).

Lemma add_base_invalid self base :
  base ∉ Drink._valid_bases →
  Drink.add_base base self = (Raises (ValueError ("Invalid base: " +:+ base)), self).
Proof.
  intros Hb. unfold Drink.add_base. run_method.
  by rewrite (list_contains_false _ _ Hb).
Qed.

Lemma add_base_valid self base :
  base ∈ Drink._valid_bases →
  Drink.add_base base self =
    (Returns (), {| Drink._base := Some base; Drink._flavors := Drink._flavors self |}).
Proof.
  intros Hb. unfold Drink.add_base. run_method.
  by rewrite (list_contains_true _ _ Hb).
Qed.

Lemma add_flavor_invalid self flavor :
  flavor ∉ Drink._valid_flavors →
  Drink.add_flavor flavor self =
    (Raises (ValueError ("Invalid flavor: " +:+ flavor)), self).
Proof.
  intros Hf. unfold Drink.add_flavor. run_method.
  by rewrite (list_contains_false _ _ Hf).
Qed.

Lemma add_flavor_duplicate self flavor :
  flavor ∈ Drink._valid_flavors → flavor ∈ Drink._flavors self →
  Drink.add_flavor flavor self =
    (Raises (ValueError ("Flavor '" +:+ flavor +:+ "' has already been added.")), self).
Proof.
  intros Hf Hin. unfold Drink.add_flavor. run_method.
  rewrite (list_contains_true _ _ Hf). simpl.
  by rewrite bool_decide_eq_true_2.
Qed.

Lemma add_flavor_fresh self flavor :
  flavor ∈ Drink._valid_flavors → flavor ∉ Drink._flavors self →
  Drink.add_flavor flavor self =
    (Returns (), {| Drink._base := Drink._base self;
                    Drink._flavors := Drink._flavors self ∪ {[flavor]} |}).
Proof.
  intros Hf Hin. unfold Drink.add_flavor. run_method.
  rewrite (list_contains_true _ _ Hf). simpl.
  by rewrite bool_decide_eq_false_2.
Qed.
End drink.

(** C6. For every drink and every base outside the fixed base set,
    [add_base] raises [ValueError("Invalid base: ...")] (the spec's
    InvalidArgument) and the drink is exactly as before: the stored base,
    set or unset, and the flavors are unchanged. *)
Theorem add_base_invalid_unchanged (self : Drink.t) (base : string) :
  base ∉ ["water"; "sbrite"; "pokeacola"; "Mr. Salt"; "hill fog"; "leaf wine"]%string →
  result (Drink.add_base base) self = Raises (ValueError ("Invalid base: " +:+ base))
  ∧ after (Drink.add_base base) self = self
  ∧ result Drink.get_base (after (Drink.add_base base) self) = Returns (Drink._base self)
  ∧ Drink._flavors (after (Drink.add_base base) self) = Drink._flavors self.
Proof.
  intros Hb. unfold result, after.
  rewrite (add_base_invalid self base Hb). simpl. done.
Qed.

Lemma add_base_invalid_unchanged_witness :
  let unset := Drink.__init__ in
  let watered := after (Drink.add_flavor "mint") (after (Drink.add_base "water") unset) in
  (result (Drink.add_base "invalid_base") unset = Raises (ValueError "Invalid base: invalid_base")
   ∧ after (Drink.add_base "invalid_base") unset = unset)
  ∧ (result (Drink.add_base "invalid_base") watered = Raises (ValueError "Invalid base: invalid_base")
     ∧ result Drink.get_base (after (Drink.add_base "invalid_base") watered) = Returns (Some "water"%string)
     ∧ Drink._flavors (after (Drink.add_base "invalid_base") watered) = Drink._flavors watered).
Proof.
  intros unset watered.
  assert (Hb : "invalid_base"%string ∉
    ["water"; "sbrite"; "pokeacola"; "Mr. Salt"; "hill fog"; "leaf wine"]%string)
    by decide_closed.
  split.
  - destruct (add_base_invalid_unchanged unset "invalid_base" Hb) as (H1 & H2 & _).
    split; [exact H1 | exact H2].
  - destruct (add_base_invalid_unchanged watered "invalid_base" Hb) as (H1 & _ & H3 & H4).
    split; [exact H1 | split; [exact H3 | exact H4]].
Defined.

(** C7. For every drink and every base of the valid base set, [add_base]
    returns, and [get_base] afterwards returns that base, whatever base
    was stored before (the last write wins, re-setting is no error); the
    flavors are untouched.  The [get_base] of a new drink is [None]. *)
Theorem add_base_then_get_base :
  (∀ (self : Drink.t) (base : string),
     base ∈ ["water"; "sbrite"; "pokeacola"; "Mr. Salt"; "hill fog"; "leaf wine"]%string →
     result (Drink.add_base base) self = Returns ()
     ∧ result (Drink.add_base base ;; Drink.get_base) self = Returns (Some base)
     ∧ result Drink.get_base (after (Drink.add_base base) self) = Returns (Some base)
     ∧ Drink._flavors (after (Drink.add_base base) self) = Drink._flavors self)
  ∧ result Drink.get_base Drink.__init__ = Returns None.
Proof.
  split; [|reflexivity].
  intros self base Hb. unfold result, after. run_method.
  rewrite (add_base_valid self base Hb). simpl. done.
Qed.

Lemma add_base_then_get_base_witness :
  let fresh := Drink.__init__ in
  let watered := after (Drink.add_base "water") fresh in
  result (Drink.add_base "water") fresh = Returns ()
  ∧ result Drink.get_base watered = Returns (Some "water"%string)
  ∧ result (Drink.add_base "leaf wine") watered = Returns ()
  ∧ result (Drink.add_base "leaf wine" ;; Drink.get_base) watered
    = Returns (Some "leaf wine"%string).
Proof.
  intros fresh watered.
  destruct add_base_then_get_base as [Hset _].
  destruct (Hset fresh "water"%string ltac:(decide_closed)) as (H1 & _ & H2 & _).
  destruct (Hset watered "leaf wine"%string ltac:(decide_closed)) as (H3 & H4 & _).
  split; [exact H1 | split; [exact H2 | split; [exact H3 | exact H4]]].
Defined.

(** C3. For every drink and every flavor argument: outside the fixed
    flavor set [add_flavor] raises [ValueError("Invalid flavor: ...")]
    (the spec's InvalidArgument); in the set and already on the drink it
    raises [ValueError("Flavor '...' has already been added.")] (the
    spec's DuplicateEntry); otherwise it returns and [get_flavors]
    afterwards contains the flavor.  A raise leaves the drink as it was. *)
Theorem add_flavor_cases (self : Drink.t) (flavor : string) :
  let valid := ["lemon"; "cherry"; "strawberry"; "mint"; "blueberry"; "lime"]%string in
  (flavor ∉ valid →
     result (Drink.add_flavor flavor) self
       = Raises (ValueError ("Invalid flavor: " +:+ flavor))
     ∧ after (Drink.add_flavor flavor) self = self)
  ∧ (flavor ∈ valid → flavor ∈ Drink._flavors self →
     result (Drink.add_flavor flavor) self
       = Raises (ValueError ("Flavor '" +:+ flavor +:+ "' has already been added."))
     ∧ after (Drink.add_flavor flavor) self = self)
  ∧ (flavor ∈ valid → flavor ∉ Drink._flavors self →
     result (Drink.add_flavor flavor) self = Returns ()
     ∧ ∃ flavors,
         result Drink.get_flavors (after (Drink.add_flavor flavor) self) = Returns flavors
         ∧ flavor ∈ flavors
         ∧ (∀ other, other ∈ Drink._flavors self → other ∈ flavors)).
Proof.
  intros valid. split; [|split].
  - intros Hf. unfold result, after. by rewrite (add_flavor_invalid self flavor Hf).
  - intros Hf Hin. unfold result, after.
    by rewrite (add_flavor_duplicate self flavor Hf Hin).
  - intros Hf Hin. unfold result, after.
    rewrite (add_flavor_fresh self flavor Hf Hin). simpl.
    split; [done|]. eexists. split; [reflexivity|].
    split; [|intros other Ho]; apply elem_of_elements, elem_of_union.
    + right. by apply elem_of_singleton.
    + by left.
Qed.

Lemma add_flavor_cases_witness :
  let fresh := Drink.__init__ in
  let lemony := after (Drink.add_flavor "lemon") fresh in
  result (Drink.add_flavor "vanilla") fresh = Raises (ValueError "Invalid flavor: vanilla")
  ∧ result (Drink.add_flavor "lemon") fresh = Returns ()
  ∧ (∃ flavors, result Drink.get_flavors lemony = Returns flavors ∧ "lemon"%string ∈ flavors)
  ∧ result (Drink.add_flavor "lemon") lemony
    = Raises (ValueError "Flavor 'lemon' has already been added.").
Proof.
  intros fresh lemony.
  destruct (add_flavor_cases fresh "vanilla") as (Hbad & _ & _).
  destruct (add_flavor_cases fresh "lemon") as (_ & _ & Hnew).
  destruct (add_flavor_cases lemony "lemon") as (_ & Hdup & _).
  assert (Hlemon : "lemon"%string ∈
    ["lemon"; "cherry"; "strawberry"; "mint"; "blueberry"; "lime"]%string)
    by decide_closed.
  split.
  { apply Hbad. decide_closed. }
  destruct (Hnew Hlemon) as (Hret & flavors & Hget & Hin & _).
  { decide_closed. }
  split; [exact Hret|].
  split; [exists flavors; split; [exact Hget | exact Hin]|].
  apply Hdup; [exact Hlemon|].
  decide_closed.
Defined.

(** ** Dictionaries *)
Section dict_facts.
Context {V : Type}.
Implicit Types (d : Dict.t V) (k : string) (v : V).

Lemma keys_cons k v d : Dict.keys ((k, v) :: d) = k :: Dict.keys d.
Proof. reflexivity. Qed.

Lemma contains_keys d k : Dict.contains d k = true ↔ k ∈ Dict.keys d.
Proof.
  induction d as [|[k' v'] d IH]; simpl.
  - split; [discriminate|]. intros H. by apply elem_of_nil in H.
  - rewrite keys_cons, elem_of_cons. case_decide as Hk.
    + split; [intros _; by left | done].
    + rewrite IH. split; [by right|]. intros [->|H]; [done|exact H].
Qed.

Lemma contains_false_keys d k : Dict.contains d k = false ↔ k ∉ Dict.keys d.
Proof.
  rewrite <-contains_keys. by destruct (Dict.contains d k).
Qed.

(** [k in d] guards [d[k]] against [KeyError]. *)
Lemma contains_getitem d k :
  Dict.contains d k = true → ∃ v, Dict.getitem d k = Returns v ∧ (k, v) ∈ d.
Proof.
  induction d as [|[k' v'] d IH]; simpl; [discriminate|].
  case_decide as Hk.
  - intros _. exists v'. subst. split; [done | by left].
  - intros (v & Hget & Hin)%IH. exists v. split; [done | by right].
Qed.

Lemma getitem_contains d k v :
  Dict.getitem d k = Returns v → Dict.contains d k = true.
Proof.
  induction d as [|[k' v'] d IH]; simpl; [discriminate|].
  by case_decide.
Qed.

(** In a dictionary literal without repeated keys, every listed item is
    what a lookup of its key gives. *)
Lemma getitem_listed d k v :
  NoDup (Dict.keys d) → (k, v) ∈ d → Dict.getitem d k = Returns v.
Proof.
  induction d as [|[k' v'] d IH]; simpl.
  - intros _ H. by apply elem_of_nil in H.
  - rewrite keys_cons, NoDup_cons. intros [Hnew Hnd] Hin.
    apply elem_of_cons in Hin as [Heq|Hin].
    + injection Heq as -> ->. by rewrite decide_True.
    + rewrite decide_False; [by apply IH|].
      intros ->. apply Hnew. unfold Dict.keys.
      by apply (list_elem_of_fmap_2 fst d (k, v)).
Qed.

Lemma keys_setitem d k v :
  Dict.keys (Dict.setitem d k v)
  = if Dict.contains d k then Dict.keys d else Dict.keys d ++ [k].
Proof.
  induction d as [|[k' v'] d IH]; simpl; [done|].
  case_decide as Hk; [done|].
  rewrite !keys_cons, IH. by destruct (Dict.contains d k).
Qed.

(** Assigning what is stored already changes nothing, the position of
    the key included. *)
Lemma setitem_stored d k v :
  Dict.getitem d k = Returns v → Dict.setitem d k v = d.
Proof.
  induction d as [|[k' v'] d IH]; simpl; [discriminate|].
  case_decide as Hk.
  - by intros [= ->].
  - intros H. by rewrite IH.
Qed.

Lemma getitem_setitem d k v : Dict.getitem (Dict.setitem d k v) k = Returns v.
Proof.
  induction d as [|[k' v'] d IH]; simpl.
  - by rewrite decide_True.
  - case_decide as Hk; simpl.
    + by rewrite decide_True.
    + by rewrite decide_False.
Qed.

Lemma Forall_setitem (P : string * V → Prop) d k v :
  Forall P d → P (k, v) → Forall P (Dict.setitem d k v).
Proof.
  intros Hd Hkv. induction Hd as [|[k' v'] d Hx Hd IH]; simpl.
  - by constructor.
  - case_decide as Hk.
    + subst. by constructor.
    + by constructor.
Qed.
End dict_facts.

(** ** Food *)
Section food.
Implicit Types (self : Food.t) (topping food_item : string).

Lemma add_topping_invalid self topping :
  Dict.contains Food._valid_toppings topping = false →
  Food.add_topping topping self
  = (Raises (ValueError ("Invalid topping: " +:+ topping)), self).
Proof. intros Hc. unfold Food.add_topping. run_method. by rewrite Hc. Qed.

Lemma add_topping_valid self topping :
  Dict.contains Food._valid_toppings topping = true →
  ∃ price,
    Dict.getitem Food._valid_toppings topping = Returns price
    ∧ Food.add_topping topping self
      = (Returns (),
         {| Food._food_item := Food._food_item self;
            Food._base_price := Food._base_price self;
            Food._toppings := Dict.setitem (Food._toppings self) topping price |}).
Proof.
  intros Hc. destruct (contains_getitem _ _ Hc) as (price & Hget & _).
  exists price. split; [done|].
  unfold Food.add_topping. run_method. by rewrite Hc, Hget.
Qed.

Lemma food_init_returns food_item self :
  Food.__init__ food_item = Returns self →
  Dict.getitem Food._valid_food_items food_item = Returns (Food._base_price self)
  ∧ Food._food_item self = food_item
  ∧ Food._toppings self = [].
Proof.
  unfold Food.__init__.
  destruct (Dict.contains Food._valid_food_items food_item); cbn; [|discriminate].
  unfold mbind, outcome_bind, mret, outcome_ret.
  destruct (Dict.getitem Food._valid_food_items food_item); [|discriminate].
  intros Hself. injection Hself as <-. done.
Qed.

(** No call changes the item or the base price of a food. *)
Lemma step_keeps_item c self :
  Food._food_item (Food.step c self) = Food._food_item self
  ∧ Food._base_price (Food.step c self) = Food._base_price self.
Proof.
  destruct c as [topping| |]; simpl; [|done..].
  unfold after.
  destruct (Dict.contains Food._valid_toppings topping) eqn:Hc.
  - destruct (add_topping_valid self topping Hc) as (price & _ & ->). done.
  - by rewrite (add_topping_invalid self topping Hc).
Qed.

Lemma reachable_food_invariant self : Food.reachable self → food_invariant self.
Proof.
  induction 1 as [food_item self Hinit | c self Hreach (Hitem & Hnd & Hall)].
  - destruct (food_init_returns _ _ Hinit) as (Hget & Hi & Ht).
    unfold food_invariant. rewrite Hi, Ht.
    split; [done|]. split; [apply NoDup_nil_2 | apply Forall_nil_2].
  - destruct (step_keeps_item c self) as [Hi Hp].
    unfold food_invariant.
    split; [by rewrite Hi, Hp|].
    destruct c as [topping| |]; simpl; [|done..].
    unfold after.
    destruct (Dict.contains Food._valid_toppings topping) eqn:Hc.
    + destruct (add_topping_valid self topping Hc) as (price & Hget & ->). simpl.
      split; [|by apply Forall_setitem].
      rewrite keys_setitem.
      destruct (Dict.contains (Food._toppings self) topping) eqn:Hs; [done|].
      apply NoDup_app. split; [done|]. split; [|apply NoDup_singleton].
      intros k Hk ->%list_elem_of_singleton.
      by apply contains_false_keys in Hs.
    + by rewrite (add_topping_invalid self topping Hc).
Qed.
End food.

Section food_claims.
Implicit Types (self : Food.t) (topping food_item : string).

Lemma run_keeps_item calls self :
  Food._food_item (Food.run calls self) = Food._food_item self
  ∧ Food._base_price (Food.run calls self) = Food._base_price self.
Proof.
  revert self. induction calls as [|c calls IH]; intros self; [done|].
  change (Food.run (c :: calls) self) with (Food.run calls (Food.step c self)).
  destruct (IH (Food.step c self)) as [-> ->]. apply step_keeps_item.
Qed.

Lemma run_reachable calls self :
  Food.reachable self → Food.reachable (Food.run calls self).
Proof.
  revert self. induction calls as [|c calls IH]; intros self Hr; [done|].
  apply (IH (Food.step c self)). by constructor.
Qed.

Lemma valid_food_items_keys_NoDup : NoDup (Dict.keys Food._valid_food_items).
Proof. decide_closed. Qed.
End food_claims.

(** C5. Constructing a [Food] with a name that is not a key of the price
    table raises [ValueError("Invalid food item: ...")] (the spec's
    InvalidArgument).  With a name of the table the construction returns a
    food of that item whose base price is the table's and which has no
    toppings, and no sequence of calls changes the item or the base
    price afterwards. *)
Theorem food_init_cases (food_item : string) :
  let menu : Dict.t float :=
    [ ("Hotdog", 2.30); ("Corndog", 2.00); ("Ice Cream", 3.00);
      ("Onion Rings", 1.75); ("French Fries", 1.50); ("Tater Tots", 1.70);
      ("Nacho Chips", 1.90) ]%string%float in
  (food_item ∉ Dict.keys menu →
     Food.__init__ food_item
     = Raises (ValueError ("Invalid food item: " +:+ food_item)))
  ∧ (∀ price, (food_item, price) ∈ menu →
       ∃ self,
         Food.__init__ food_item = Returns self
         ∧ Food._food_item self = food_item
         ∧ Food._base_price self = price
         ∧ result Food.get_toppings self = Returns []
         ∧ ∀ calls,
             Food._food_item (Food.run calls self) = food_item
             ∧ Food._base_price (Food.run calls self) = price).
Proof.
  intros menu. change menu with Food._valid_food_items. clear menu. split.
  - intros Hk%contains_false_keys. unfold Food.__init__. by rewrite Hk.
  - intros price Hin.
    pose proof (getitem_listed _ _ _ valid_food_items_keys_NoDup Hin) as Hget.
    assert (Hc : Dict.contains Food._valid_food_items food_item = true).
    { apply contains_keys. unfold Dict.keys.
      by apply (list_elem_of_fmap_2 fst _ (food_item, price)). }
    eexists. unfold Food.__init__. rewrite Hc, Hget. cbn.
    split; [reflexivity|]. cbn. split; [done|]. split; [done|]. split; [done|].
    intros calls. apply run_keeps_item.
Qed.

Lemma food_init_cases_witness :
  Food.__init__ "InvalidItem" = Raises (ValueError "Invalid food item: InvalidItem")
  ∧ ∃ self,
      Food.__init__ "Hotdog" = Returns self
      ∧ Food._base_price self = 2.30%float
      ∧ result Food.get_toppings self = Returns []
      ∧ Food._base_price
          (Food.run [Food.AddTopping "Chili"; Food.GetPrice; Food.AddTopping "Salt"] self)
        = 2.30%float.
Proof.
  destruct (food_init_cases "InvalidItem") as [Hbad _].
  destruct (food_init_cases "Hotdog") as [_ Hgood].
  split; [apply Hbad; decide_closed|].
  destruct (Hgood 2.30%float) as (self & Hinit & _ & Hprice & Htops & Hlife).
  { apply list_elem_of_here. }
  exists self. split; [exact Hinit|]. split; [exact Hprice|]. split; [exact Htops|].
  apply Hlife.
Defined.

Section topping_prices.
Implicit Types (self : Food.t) (topping : string).

(** On a food a program can hold, a stored topping has the price the
    topping table gives it. *)
Lemma stored_topping_price self topping :
  Food.reachable self → topping ∈ Dict.keys (Food._toppings self) →
  ∃ price,
    Dict.getitem (Food._toppings self) topping = Returns price
    ∧ Dict.getitem Food._valid_toppings topping = Returns price.
Proof.
  intros (_ & _ & Hall)%reachable_food_invariant Hin%contains_keys.
  destruct (contains_getitem _ _ Hin) as (price & Hget & Hitem).
  exists price. split; [done|].
  rewrite Forall_forall in Hall. apply (Hall _ Hitem).
Qed.

Lemma add_topping_stored self topping :
  Food.reachable self → topping ∈ Dict.keys (Food._toppings self) →
  Food.add_topping topping self = (Returns (), self).
Proof.
  intros Hr Hin.
  destruct (stored_topping_price self topping Hr Hin) as (price & Hs & Ht).
  pose proof (getitem_contains _ _ _ Ht) as Hc.
  destruct (add_topping_valid self topping Hc) as (price' & Ht' & ->).
  rewrite Ht in Ht'. injection Ht' as <-.
  rewrite (setitem_stored _ _ _ Hs). by destruct self.
Qed.

(** Adding a valid topping twice in a row is adding it once, whatever
    the food held before. *)
Lemma add_topping_twice self topping :
  after (Food.add_topping topping) (after (Food.add_topping topping) self)
  = after (Food.add_topping topping) self.
Proof.
  unfold after.
  destruct (Dict.contains Food._valid_toppings topping) eqn:Hc.
  - destruct (add_topping_valid self topping Hc) as (price & Hget & ->). cbn.
    match goal with |- (Food.add_topping topping ?s).2 = _ =>
      destruct (add_topping_valid s topping Hc) as (price' & Hget' & ->)
    end.
    rewrite Hget in Hget'. injection Hget' as <-. cbn.
    by rewrite (setitem_stored _ _ _ (getitem_setitem _ _ _)).
  - by rewrite !(add_topping_invalid _ topping Hc).
Qed.
End topping_prices.

(** C8. On every food a program can hold, [add_topping] of a topping of
    the topping table that is stored already returns without error and
    changes nothing: the stored price it overwrites is the table's price
    already, so the toppings, their prices and [get_price] are as before
    the call.  [Drink.add_flavor] differs: adding a flavor that is on the
    drink raises. *)
Theorem add_topping_again :
  let table : Dict.t float :=
    [ ("Cherry", 0.00); ("Whipped Cream", 0.00); ("Caramel Sauce", 0.50);
      ("Chocolate Sauce", 0.50); ("Nacho Cheese", 0.30); ("Chili", 0.60);
      ("Bacon Bits", 0.30); ("Ketchup", 0.00); ("Mustard", 0.00) ]%string%float in
  (∀ (self : Food.t) (topping : string),
     Food.reachable self →
     topping ∈ Dict.keys table →
     topping ∈ Dict.keys (Food._toppings self) →
     result (Food.add_topping topping) self = Returns ()
     ∧ after (Food.add_topping topping) self = self
     ∧ Dict.getitem (Food._toppings self) topping = Dict.getitem table topping
     ∧ result Food.get_toppings (after (Food.add_topping topping) self)
       = result Food.get_toppings self
     ∧ result Food.get_price (after (Food.add_topping topping) self)
       = result Food.get_price self)
  ∧ (∀ (drink : Drink.t) (flavor : string),
       flavor ∈ Drink._flavors drink →
       ∃ msg, Drink.add_flavor flavor drink = (Raises (ValueError msg), drink)).
Proof.
  intros table. change table with Food._valid_toppings. clear table. split.
  - intros self topping Hr _ Hin. unfold result, after.
    rewrite (add_topping_stored self topping Hr Hin). cbn.
    destruct (stored_topping_price self topping Hr Hin) as (price & -> & ->).
    done.
  - intros drink flavor Hin.
    destruct (decide (flavor ∈ Drink._valid_flavors)) as [Hv|Hv].
    + eexists. by apply add_flavor_duplicate.
    + eexists. by apply add_flavor_invalid.
Qed.

Lemma add_topping_again_witness :
  ∃ self,
    (food ← Food.__init__ "Hotdog";
     Returns (after (Food.add_topping "Chili") food)) = Returns self
    ∧ result Food.get_toppings self = Returns ["Chili"%string]
    ∧ result (Food.add_topping "Chili") self = Returns ()
    ∧ after (Food.add_topping "Chili") self = self
    ∧ ∃ msg,
        Drink.add_flavor "lemon" (after (Drink.add_flavor "lemon") Drink.__init__)
        = (Raises (ValueError msg), after (Drink.add_flavor "lemon") Drink.__init__).
Proof.
  destruct add_topping_again as [Hfood Hdrink].
  eexists. split; [reflexivity|]. split; [reflexivity|].
  match goal with |- result _ ?s = _ ∧ _ =>
    destruct (Hfood s "Chili"%string) as (Hret & Hsame & _)
  end.
  - apply (Food.reachable_call (Food.AddTopping "Chili")).
    by apply (Food.reachable_new "Hotdog").
  - decide_closed.
  - decide_closed.
  - split; [exact Hret|]. split; [exact Hsame|].
    apply Hdrink. decide_closed.
Defined.

(** ** Prices *)
Section prices.
Implicit Types (self : Food.t).

Lemma get_price_unfold self :
  Food.get_price self
  = (Returns (Food._base_price self + sum (Dict.values (Food._toppings self)))%float,
     self).
Proof. reflexivity. Qed.

Lemma stored_prices_listed (d : Dict.t float) :
  Forall (λ kv, Dict.getitem Food._valid_toppings kv.1 = Returns kv.2) d →
  Forall2 (λ name price, Dict.getitem Food._valid_toppings name = Returns price)
    (Dict.keys d) (Dict.values d).
Proof.
  induction 1 as [|[k v] d Hkv Hd IH]; [constructor|].
  by apply Forall2_cons.
Qed.

(** The decimal tables are the tables of the source, read as decimals. *)
Lemma decimal_tables :
  prod_map id Decimal.to_float <$> Decimal.food_items = Food._valid_food_items
  ∧ prod_map id Decimal.to_float <$> Decimal.toppings = Food._valid_toppings.
Proof. split; vm_compute; reflexivity. Qed.
End prices.

(** C1, as the claim states it, fails: a hotdog with nacho cheese costs
    2.30 + 0.30 = 2.60 in exact decimal arithmetic, and [get_price]
    returns the double 2.5999999999999996, which is not the double 2.6. *)
Lemma get_price_not_exact_decimal :
  let self :=
    {| Food._food_item := "Hotdog"; Food._base_price := 2.30%float;
       Food._toppings := [("Nacho Cheese"%string, 0.30%float)] |} in
  (food ← Food.__init__ "Hotdog";
   Returns (after (Food.add_topping "Nacho Cheese") food)) = Returns self
  ∧ Decimal.get_price self = 260
  ∧ Decimal.to_float 260 = 2.6%float
  ∧ result Food.get_price self = Returns 2.5999999999999996%float
  ∧ PrimFloat.eqb 2.5999999999999996 2.6 = false
  ∧ result Food.get_price self ≠ Returns (Decimal.to_float (Decimal.get_price self)).
Proof.
  intros self.
  split; [vm_compute; reflexivity|]. split; [vm_compute; reflexivity|].
  split; [vm_compute; reflexivity|]. split; [vm_compute; reflexivity|].
  split; [vm_compute; reflexivity|].
  intros Heq.
  assert (Hb : match result Food.get_price self with
               | Returns p => PrimFloat.eqb p (Decimal.to_float (Decimal.get_price self))
               | Raises _ => false
               end = false) by (vm_compute; reflexivity).
  rewrite Heq in Hb. vm_compute in Hb. discriminate Hb.
Qed.

(** C1, amended.  [get_price] never raises and never changes the food;
    it returns the base price plus the [sum] of the stored topping
    prices, in binary64 floating-point arithmetic.  On a food a program
    can hold, the base price is the menu's price of the item and the
    stored prices are the topping table's prices of the toppings that
    [get_toppings] lists, in that order.  A new hotdog costs 2.30 and,
    after [add_topping("Chili")], 2.90: the doubles these literals
    denote. *)
Theorem get_price_float_sum :
  (∀ self : Food.t,
     result Food.get_price self
     = Returns (Food._base_price self + sum (Dict.values (Food._toppings self)))%float
     ∧ after Food.get_price self = self)
  ∧ (∀ self : Food.t,
       Food.reachable self →
       ∃ base names prices,
         Dict.getitem Food._valid_food_items (Food._food_item self) = Returns base
         ∧ result Food.get_toppings self = Returns names
         ∧ Forall2 (λ name price,
                      Dict.getitem Food._valid_toppings name = Returns price)
             names prices
         ∧ result Food.get_price self = Returns (base + sum prices)%float)
  ∧ (food ← Food.__init__ "Hotdog"; result Food.get_price food) = Returns 2.30%float
  ∧ (food ← Food.__init__ "Hotdog";
     result (Food.add_topping "Chili" ;; Food.get_price) food) = Returns 2.90%float.
Proof.
  split; [done|]. split; [|split; vm_compute; reflexivity].
  intros self (Hitem & _ & Hall)%reachable_food_invariant.
  exists (Food._base_price self), (Dict.keys (Food._toppings self)),
    (Dict.values (Food._toppings self)).
  split; [done|]. split; [done|]. split; [by apply stored_prices_listed | done].
Qed.

Lemma get_price_float_sum_witness :
  let self :=
    {| Food._food_item := "Nacho Chips"; Food._base_price := 1.90%float;
       Food._toppings := [("Nacho Cheese"%string, 0.30%float)] |} in
  ∃ base names prices,
    Dict.getitem Food._valid_food_items "Nacho Chips" = Returns base
    ∧ result Food.get_toppings self = Returns names
    ∧ Forall2 (λ name price, Dict.getitem Food._valid_toppings name = Returns price)
        names prices
    ∧ result Food.get_price self = Returns (base + sum prices)%float.
Proof.
  intros self.
  destruct get_price_float_sum as (_ & Hreach & _).
  apply (Hreach self).
  apply (Food.reachable_call (Food.AddTopping "Nacho Cheese")
           {| Food._food_item := "Nacho Chips"; Food._base_price := 1.90%float;
              Food._toppings := [] |}).
  apply (Food.reachable_new "Nacho Chips"). reflexivity.
Defined.

(** ** Invariants of reachable objects *)
Lemma reachable_drink_invariant (self : Drink.t) :
  Drink.reachable self → drink_invariant self.
Proof.
  induction 1 as [|c self Hreach [Hbase Hflavors]].
  - split; [by left|]. intros flavor Hin. simpl in Hin.
    apply elem_of_empty in Hin. destruct Hin.
  - unfold drink_invariant. destruct c as [base| |flavor|]; simpl; [|done| |done].
    + unfold after. destruct (decide (base ∈ Drink._valid_bases)) as [Hv|Hv].
      * rewrite (add_base_valid self base Hv). simpl.
        split; [right; by exists base | exact Hflavors].
      * by rewrite (add_base_invalid self base Hv).
    + unfold after. destruct (decide (flavor ∈ Drink._valid_flavors)) as [Hv|Hv].
      * destruct (decide (flavor ∈ Drink._flavors self)) as [Hin|Hin].
        -- by rewrite (add_flavor_duplicate self flavor Hv Hin).
        -- rewrite (add_flavor_fresh self flavor Hv Hin). simpl.
           split; [exact Hbase|].
           intros other [Ho|Ho]%elem_of_union; [by apply Hflavors|].
           apply elem_of_singleton in Ho. by subst.
      * by rewrite (add_flavor_invalid self flavor Hv).
Qed.

(** C9. Whatever calls were made on it, a drink's base is unset or one
    of the fixed bases, and its flavors are flavors of the fixed set,
    none of them twice; a food's item is an item of the menu and its
    toppings are toppings of the topping table, none of them twice. *)
Theorem invariants_preserved :
  (∀ drink : Drink.t,
     Drink.reachable drink →
     (Drink._base drink = None
      ∨ ∃ base,
          Drink._base drink = Some base
          ∧ base ∈ ["water"; "sbrite"; "pokeacola"; "Mr. Salt"; "hill fog";
                    "leaf wine"]%string)
     ∧ ∃ flavors,
         result Drink.get_flavors drink = Returns flavors
         ∧ NoDup flavors
         ∧ flavors ⊆ ["lemon"; "cherry"; "strawberry"; "mint"; "blueberry";
                      "lime"]%string)
  ∧ (∀ food : Food.t,
       Food.reachable food →
       Food._food_item food
         ∈ ["Hotdog"; "Corndog"; "Ice Cream"; "Onion Rings"; "French Fries";
            "Tater Tots"; "Nacho Chips"]%string
       ∧ ∃ toppings,
           result Food.get_toppings food = Returns toppings
           ∧ NoDup toppings
           ∧ toppings ⊆ ["Cherry"; "Whipped Cream"; "Caramel Sauce";
                         "Chocolate Sauce"; "Nacho Cheese"; "Chili"; "Bacon Bits";
                         "Ketchup"; "Mustard"]%string).
Proof.
  split.
  - intros drink [Hbase Hflavors]%reachable_drink_invariant.
    split; [exact Hbase|].
    exists (elements (Drink._flavors drink)).
    split; [reflexivity|]. split; [apply NoDup_elements|].
    intros flavor Hin%elem_of_elements. by apply Hflavors.
  - intros food (Hitem & Hnd & Hall)%reachable_food_invariant.
    split.
    + apply getitem_contains, contains_keys in Hitem. exact Hitem.
    + exists (Dict.keys (Food._toppings food)).
      split; [reflexivity|]. split; [exact Hnd|].
      intros topping Hin. unfold Dict.keys in Hin.
      apply list_elem_of_fmap in Hin as ([k v] & -> & Hin).
      rewrite Forall_forall in Hall.
      apply Hall, getitem_contains, contains_keys in Hin. exact Hin.
Qed.

Lemma invariants_preserved_witness :
  let drink :=
    Drink.step (Drink.AddFlavor "lime")
      (Drink.step (Drink.AddBase "cola")
         (Drink.step (Drink.AddBase "water") Drink.__init__)) in
  let food :=
    {| Food._food_item := "Corndog"; Food._base_price := 2.00%float;
       Food._toppings := [("Mustard"%string, 0.00%float)] |} in
  (∃ base, Drink._base drink = Some base
           ∧ base ∈ ["water"; "sbrite"; "pokeacola"; "Mr. Salt"; "hill fog";
                     "leaf wine"]%string)
  ∧ (∃ toppings,
       result Food.get_toppings food = Returns toppings
       ∧ NoDup toppings
       ∧ toppings ⊆ ["Cherry"; "Whipped Cream"; "Caramel Sauce";
                     "Chocolate Sauce"; "Nacho Cheese"; "Chili"; "Bacon Bits";
                     "Ketchup"; "Mustard"]%string).
Proof.
  intros drink food.
  destruct invariants_preserved as [Hdrink Hfood].
  split.
  - destruct (Hdrink drink) as [[Hnone|Hbase] _].
    + repeat constructor.
    + discriminate Hnone.
    + exact Hbase.
  - destruct (Hfood food) as [_ Htoppings]; [|exact Htoppings].
    apply (Food.reachable_call (Food.AddTopping "Mustard")
             (Food.step (Food.AddTopping "Pepper")
                {| Food._food_item := "Corndog"; Food._base_price := 2.00%float;
                   Food._toppings := [] |})).
    apply Food.reachable_call.
    apply (Food.reachable_new "Corndog"). reflexivity.
Defined.

(** ** Order *)
Section order.
Implicit Types (self : Order.t) (index : Z) (it : Order.item).

Lemma remove_item_out_of_range self index :
  index < 0 ∨ Z.of_nat (length (Order._items self)) ≤ index →
  Order.remove_item index self = (Raises (IndexError "Invalid index."), self).
Proof.
  intros Hi. unfold Order.remove_item. run_method.
  replace ((index <? 0) || (index >=? Z.of_nat (length (Order._items self))))
    with true; [done|].
  symmetry. apply orb_true_iff. rewrite Z.ltb_lt, Z.geb_le. lia.
Qed.

Lemma pop_in_range {A} (l : list A) index :
  0 ≤ index < Z.of_nat (length l) →
  ∃ x, l !! Z.to_nat index = Some x
       ∧ pop l index = Returns (x, delete (Z.to_nat index) l).
Proof.
  intros Hi. destruct (lookup_lt_is_Some_2 l (Z.to_nat index)) as [x Hx]; [lia|].
  exists x. split; [done|].
  assert (Hneg : (index <? 0) = false) by (apply Z.ltb_ge; lia).
  assert (Hlen : (Z.of_nat (length l) <=? index) = false) by (apply Z.leb_gt; lia).
  unfold pop. cbv zeta. rewrite Hneg. cbv iota. rewrite Hneg, Hlen. simpl.
  by rewrite Hx.
Qed.

Lemma remove_item_in_range self index :
  0 ≤ index < Z.of_nat (length (Order._items self)) →
  Order.remove_item index self
  = (Returns (), {| Order._items := delete (Z.to_nat index) (Order._items self) |}).
Proof.
  intros Hi. unfold Order.remove_item. run_method.
  replace ((index <? 0) || (index >=? Z.of_nat (length (Order._items self))))
    with false.
  - destruct (pop_in_range (Order._items self) index Hi) as (x & _ & ->). done.
  - symmetry. apply orb_false_iff. rewrite Z.ltb_ge, Z.geb_leb, Z.leb_gt. lia.
Qed.

Lemma for_loop_charges (items : list Order.item) (total : float) :
  for_loop Order.add_to_total items total
  = Returns (fold_left PrimFloat.add (omap Order.charge items) total).
Proof.
  revert total. induction items as [|it items IH]; intros total; [done|].
  destruct it as [d|f|o]; cbn.
  - apply IH.
  - unfold result. rewrite get_price_unfold. cbn. apply IH.
  - apply IH.
Qed.

Lemma get_total_charges self :
  Order.get_total self = (Returns (sum (omap Order.charge (Order._items self))), self).
Proof.
  unfold Order.get_total. run_method. by rewrite for_loop_charges.
Qed.
End order.

(** C4. For an order of length [n] and an integer index [i],
    [remove_item(i)] raises exactly when [i < 0] or [i >= n], and what it
    raises is [IndexError("Invalid index.")] (the spec's OutOfRange) with
    the order unchanged; so it raises on an empty order.  Otherwise it
    returns, the items before position [i] stay where they were, every
    item after position [i] moves down by one position, and
    [get_num_items] is one less. *)
Theorem remove_item_cases (self : Order.t) (index : Z) :
  let n := length (Order._items self) in
  ((∃ e, result (Order.remove_item index) self = Raises e)
   ↔ index < 0 ∨ Z.of_nat n ≤ index)
  ∧ (index < 0 ∨ Z.of_nat n ≤ index →
       Order.remove_item index self = (Raises (IndexError "Invalid index."), self))
  ∧ (n = 0%nat →
       result (Order.remove_item index) self = Raises (IndexError "Invalid index."))
  ∧ (0 ≤ index < Z.of_nat n →
       let i := Z.to_nat index in
       let self' := after (Order.remove_item index) self in
       result (Order.remove_item index) self = Returns ()
       ∧ result Order.get_num_items self' = Returns (n - 1)%nat
       ∧ (∀ j, (j < i)%nat → Order._items self' !! j = Order._items self !! j)
       ∧ (∀ j, (i ≤ j)%nat → Order._items self' !! j = Order._items self !! S j)).
Proof.
  intros n.
  assert (Hout : index < 0 ∨ Z.of_nat n ≤ index →
    Order.remove_item index self = (Raises (IndexError "Invalid index."), self))
    by apply remove_item_out_of_range.
  split; [|split; [exact Hout|split]].
  - split.
    + intros [e He].
      destruct (decide (0 ≤ index < Z.of_nat n)) as [Hin|Hin]; [|lia].
      unfold result in He. rewrite (remove_item_in_range self index Hin) in He.
      discriminate He.
    + intros Hi. eexists. unfold result. by rewrite (Hout Hi).
  - intros Hn. unfold result. rewrite Hout; [done|lia].
  - intros Hin i self'. subst self'. unfold result, after.
    rewrite (remove_item_in_range self index Hin). cbn.
    split; [done|]. split; [|split].
    + unfold Order.get_num_items. run_method. f_equal.
      apply length_delete, lookup_lt_is_Some_2. lia.
    + intros j Hj. by apply list_lookup_delete_lt.
    + intros j Hj. by apply list_lookup_delete_ge.
Qed.

Lemma remove_item_cases_witness :
  let empty := Order.__init__ in
  let three := {| Order._items :=
    [Order.Other (PyInt 10); Order.Other (PyInt 11); Order.Other (PyInt 12)] |} in
  result (Order.remove_item 0) empty = Raises (IndexError "Invalid index.")
  ∧ Order.remove_item 3 three = (Raises (IndexError "Invalid index."), three)
  ∧ Order.remove_item (-1) three = (Raises (IndexError "Invalid index."), three)
  ∧ result (Order.remove_item 1) three = Returns ()
  ∧ result Order.get_num_items (after (Order.remove_item 1) three) = Returns 2%nat
  ∧ Order._items (after (Order.remove_item 1) three) !! 0%nat
    = Some (Order.Other (PyInt 10))
  ∧ Order._items (after (Order.remove_item 1) three) !! 1%nat
    = Some (Order.Other (PyInt 12)).
Proof.
  intros empty three.
  destruct (remove_item_cases empty 0) as (_ & _ & Hempty & _).
  destruct (remove_item_cases three 3) as (_ & Hhigh & _).
  destruct (remove_item_cases three (-1)) as (_ & Hlow & _).
  destruct (remove_item_cases three 1) as (_ & _ & _ & Hmid).
  destruct Hmid as (Hret & Hnum & Hbefore & Hafter); [simpl; lia|].
  split; [apply Hempty; reflexivity|].
  split; [apply Hhigh; simpl; lia|].
  split; [apply Hlow; simpl; lia|].
  split; [exact Hret|]. split; [exact Hnum|].
  split; [apply (Hbefore 0%nat); simpl; lia | apply (Hafter 1%nat); simpl; lia].
Defined.

(** C2. [get_total] never raises and leaves the order as it is; it
    returns what adding, from 0 and from the first item to the last,
    5.00 for every drink and [get_price()] for every food gives.  The
    total of an empty order is 0, adding a drink to an order adds 5.00 to
    its total and adding a food adds the food's price, and the order of a
    drink with base "water" and a hotdog with chili totals 7.90 (the
    double this literal denotes). *)
Theorem get_total_sum :
  (∀ self : Order.t,
     result Order.get_total self
     = Returns (sum (omap Order.charge (Order._items self)))
     ∧ after Order.get_total self = self)
  ∧ result Order.get_total Order.__init__ = Returns 0%float
  ∧ (∀ (self : Order.t) (drink : Drink.t),
       result (Order.add_item (Order.ADrink drink) ;; Order.get_total) self
       = (total ← result Order.get_total self; Returns (total + 5.00)%float))
  ∧ (∀ (self : Order.t) (food : Food.t),
       result (Order.add_item (Order.AFood food) ;; Order.get_total) self
       = (total ← result Order.get_total self;
          price ← result Food.get_price food;
          Returns (total + price)%float))
  ∧ (let drink := after (Drink.add_base "water") Drink.__init__ in
     food ← Food.__init__ "Hotdog";
     result (Order.add_item (Order.ADrink drink) ;;
             Order.add_item (Order.AFood (after (Food.add_topping "Chili") food)) ;;
             Order.get_total) Order.__init__) = Returns 7.90%float.
Proof.
  split; [|split; [reflexivity|split; [|split]]].
  - intros self. unfold result, after. by rewrite get_total_charges.
  - intros self drink.
    unfold result, Order.add_item, mbind at 1, method_bind, assign.
    rewrite !get_total_charges. cbn. unfold sum.
    by rewrite omap_app, fold_left_app.
  - intros self food.
    unfold result, Order.add_item, mbind at 1, method_bind, assign.
    rewrite !get_total_charges. cbn. unfold sum.
    by rewrite omap_app, fold_left_app.
  - vm_compute. reflexivity.
Qed.

(** C10. [add_item] stores whatever it is given and never raises.  An
    item that is neither a drink nor a food counts as an item and is
    charged nothing: adding one makes [get_num_items] one more and leaves
    [get_total] as it was. *)
Theorem add_item_other (self : Order.t) :
  (∀ it : Order.item,
     Order.add_item it self
     = (Returns (), {| Order._items := Order._items self ++ [it] |}))
  ∧ ∀ o : object,
      let self' := after (Order.add_item (Order.Other o)) self in
      result Order.get_num_items self' = Returns (S (length (Order._items self)))
      ∧ result Order.get_num_items self'
        = (n ← result Order.get_num_items self; Returns (S n))
      ∧ result Order.get_total self' = result Order.get_total self.
Proof.
  split; [done|]. intros o self'. subst self'.
  unfold result, after, Order.add_item, assign. cbn [snd].
  rewrite !get_total_charges. unfold Order.get_num_items. run_method.
  rewrite length_app, omap_app. cbn. rewrite app_nil_r.
  split; [f_equal; lia|]. split; [f_equal; lia|done].
Qed.

(** * Further properties *)

Set Warnings "-clear-no-such-hyp".

(** ** Drinks over sequences of calls *)
Section drink_runs.
Implicit Types (self : Drink.t) (base flavor : string) (c : Drink.call).

Lemma drink_run_cons c calls self :
  Drink.run (c :: calls) self = Drink.run calls (Drink.step c self).
Proof. reflexivity. Qed.

Lemma drink_run_app calls1 calls2 self :
  Drink.run (calls1 ++ calls2) self = Drink.run calls2 (Drink.run calls1 self).
Proof. apply fold_left_app. Qed.

(** What [add_flavor] leaves behind, whether it returned or raised. *)
Lemma add_flavor_after self flavor :
  Drink._base (after (Drink.add_flavor flavor) self) = Drink._base self
  ∧ Drink._flavors (after (Drink.add_flavor flavor) self)
    = if decide (flavor ∈ Drink._valid_flavors)
      then Drink._flavors self ∪ {[flavor]}
      else Drink._flavors self.
Proof.
  unfold after. case_decide as Hv.
  - destruct (decide (flavor ∈ Drink._flavors self)) as [Hin|Hin].
    + rewrite (add_flavor_duplicate self flavor Hv Hin). simpl.
      split; [done|]. symmetry. rewrite (comm_L (∪)). apply subseteq_union_1_L.
      intros other Ho%elem_of_singleton. by subst.
    + by rewrite (add_flavor_fresh self flavor Hv Hin).
  - by rewrite (add_flavor_invalid self flavor Hv).
Qed.

Lemma add_base_after self base :
  Drink._flavors (after (Drink.add_base base) self) = Drink._flavors self
  ∧ Drink._base (after (Drink.add_base base) self)
    = if decide (base ∈ Drink._valid_bases) then Some base else Drink._base self.
Proof.
  unfold after. case_decide as Hv.
  - by rewrite (add_base_valid self base Hv).
  - by rewrite (add_base_invalid self base Hv).
Qed.

Lemma step_flavors c self flavor :
  flavor ∈ Drink._flavors (Drink.step c self)
  ↔ flavor ∈ Drink._flavors self
    ∨ (c = Drink.AddFlavor flavor ∧ flavor ∈ Drink._valid_flavors).
Proof.
  destruct c as [base| |other|]; simpl.
  - destruct (add_base_after self base) as [-> _]. naive_solver.
  - naive_solver.
  - destruct (add_flavor_after self other) as [_ ->]. case_decide as Hv.
    + rewrite elem_of_union, elem_of_singleton. naive_solver.
    + naive_solver.
  - naive_solver.
Qed.

Lemma run_flavors calls self flavor :
  flavor ∈ Drink._flavors (Drink.run calls self)
  ↔ flavor ∈ Drink._flavors self
    ∨ (Drink.AddFlavor flavor ∈ calls ∧ flavor ∈ Drink._valid_flavors).
Proof.
  revert self. induction calls as [|c calls IH]; intros self.
  - simpl. rewrite elem_of_nil. naive_solver.
  - rewrite drink_run_cons, IH, step_flavors, elem_of_cons. naive_solver.
Qed.

(** A call that is no [add_base] with a valid base keeps the base. *)
Lemma step_keeps_base c self :
  (∀ base, c = Drink.AddBase base → base ∉ Drink._valid_bases) →
  Drink._base (Drink.step c self) = Drink._base self.
Proof.
  intros Hc. destruct c as [base| |flavor|]; simpl; [| done | | done].
  - destruct (add_base_after self base) as [_ ->].
    rewrite decide_False; [done|]. by apply Hc.
  - by destruct (add_flavor_after self flavor) as [-> _].
Qed.

Lemma run_keeps_base calls self :
  Forall (λ c, ∀ base, c = Drink.AddBase base → base ∉ Drink._valid_bases) calls →
  Drink._base (Drink.run calls self) = Drink._base self.
Proof.
  intros Hcalls. revert self.
  induction Hcalls as [|c calls Hc _ IH]; intros self; [done|].
  by rewrite drink_run_cons, IH, step_keeps_base.
Qed.
End drink_runs.

(** X1. The flavors of a drink after any sequence of calls are the ones
    it had before together with the valid flavors that [add_flavor] was
    called with: raising calls and calls of the other methods add
    nothing, and nothing is ever removed. *)
Theorem flavors_after_calls (calls : list Drink.call) (self : Drink.t) (flavor : string) :
  ∃ flavors,
    result Drink.get_flavors (Drink.run calls self) = Returns flavors
    ∧ (flavor ∈ flavors
       ↔ flavor ∈ Drink._flavors self
         ∨ (Drink.AddFlavor flavor ∈ calls ∧ flavor ∈ Drink._valid_flavors)).
Proof.
  eexists. split; [reflexivity|]. rewrite elem_of_elements. apply run_flavors.
Qed.

(** X2. The last [add_base] with a valid base decides the base: after
    it, calls of [add_base] with invalid bases and calls of the other
    methods leave [get_base] at that base; and a sequence without any
    [add_base] of a valid base leaves the base as it was. *)
Theorem base_after_calls (before rest : list Drink.call) (self : Drink.t) (base : string) :
  Forall (λ c, ∀ b, c = Drink.AddBase b → b ∉ Drink._valid_bases) rest →
  (base ∈ Drink._valid_bases →
     result Drink.get_base (Drink.run (before ++ Drink.AddBase base :: rest) self)
     = Returns (Some base))
  ∧ result Drink.get_base (Drink.run rest self) = result Drink.get_base self.
Proof.
  assert (Hget : ∀ d, result Drink.get_base d = Returns (Drink._base d)) by done.
  intros Hrest. rewrite !Hget. split.
  - intros Hv. rewrite drink_run_app, drink_run_cons.
    rewrite (run_keeps_base _ _ Hrest). simpl.
    destruct (add_base_after (Drink.run before self) base) as [_ ->].
    by rewrite decide_True.
  - by rewrite (run_keeps_base _ _ Hrest).
Qed.

Lemma base_after_calls_witness :
  result Drink.get_base
    (Drink.run [Drink.AddBase "water"; Drink.AddBase "hill fog";
                Drink.AddFlavor "mint"; Drink.AddBase "tea"; Drink.GetFlavors]
       Drink.__init__)
  = Returns (Some "hill fog"%string).
Proof.
  apply (base_after_calls [Drink.AddBase "water"]
           [Drink.AddFlavor "mint"; Drink.AddBase "tea"; Drink.GetFlavors]
           Drink.__init__ "hill fog").
  - repeat constructor; intros b Hb; try discriminate Hb.
    injection Hb as <-. decide_closed.
  - decide_closed.
Defined.

(** X3. The order in which flavors are added does not matter: two
    [add_flavor] calls, whether they return or raise, leave the same
    drink in either order. *)
Theorem add_flavor_commutes (self : Drink.t) (flavor1 flavor2 : string) :
  after (Drink.add_flavor flavor2) (after (Drink.add_flavor flavor1) self)
  = after (Drink.add_flavor flavor1) (after (Drink.add_flavor flavor2) self).
Proof.
  assert (Heq : ∀ d1 d2 : Drink.t,
    Drink._base d1 = Drink._base d2 → Drink._flavors d1 = Drink._flavors d2 → d1 = d2).
  { intros [b1 f1] [b2 f2]; simpl. by intros -> ->. }
  apply Heq.
  - destruct (add_flavor_after (after (Drink.add_flavor flavor1) self) flavor2) as [-> _].
    destruct (add_flavor_after (after (Drink.add_flavor flavor2) self) flavor1) as [-> _].
    destruct (add_flavor_after self flavor1) as [-> _].
    by destruct (add_flavor_after self flavor2) as [-> _].
  - destruct (add_flavor_after (after (Drink.add_flavor flavor1) self) flavor2) as [_ ->].
    destruct (add_flavor_after (after (Drink.add_flavor flavor2) self) flavor1) as [_ ->].
    destruct (add_flavor_after self flavor1) as [_ ->].
    destruct (add_flavor_after self flavor2) as [_ ->].
    repeat case_decide; try done.
    rewrite <-!(assoc_L (∪)). f_equal. apply (comm_L (∪)).
Qed.

(** X4. A drink a program can hold never lists more than six flavors. *)
Theorem flavors_at_most_six (self : Drink.t) :
  Drink.reachable self →
  ∃ flavors,
    result Drink.get_flavors self = Returns flavors ∧ (length flavors ≤ 6)%nat.
Proof.
  intros [_ Hflavors]%reachable_drink_invariant.
  eexists. split; [reflexivity|].
  change 6%nat with (length Drink._valid_flavors).
  apply submseteq_length, NoDup_submseteq; [apply NoDup_elements|].
  intros flavor Hin%elem_of_elements. by apply Hflavors.
Qed.

Lemma flavors_at_most_six_witness :
  ∃ flavors,
    result Drink.get_flavors
      (Drink.run [Drink.AddFlavor "lime"; Drink.AddFlavor "mint"] Drink.__init__)
    = Returns flavors
    ∧ (length flavors ≤ 6)%nat.
Proof.
  apply flavors_at_most_six.
  apply (Drink.reachable_call (Drink.AddFlavor "mint")).
  apply (Drink.reachable_call (Drink.AddFlavor "lime")).
  apply Drink.reachable_new.
Defined.

(** ** Foods over sequences of calls *)
Section food_runs.
Implicit Types (self : Food.t) (topping : string) (c : Food.call).

Lemma setitem_fresh {V} (d : Dict.t V) (k : string) (v : V) :
  Dict.contains d k = false → Dict.setitem d k v = d ++ [(k, v)].
Proof.
  induction d as [|[k' v'] d IH]; simpl; [done|].
  case_decide as Hk; [discriminate|]. intros Hc. by rewrite IH.
Qed.

Lemma food_run_cons c calls self :
  Food.run (c :: calls) self = Food.run calls (Food.step c self).
Proof. reflexivity. Qed.

(** The toppings a call leaves behind: the same, or one more at the end. *)
Lemma step_toppings c self :
  Dict.keys (Food._toppings (Food.step c self))
  = match c with
    | Food.AddTopping topping =>
        if Dict.contains Food._valid_toppings topping
           && negb (Dict.contains (Food._toppings self) topping)
        then Dict.keys (Food._toppings self) ++ [topping]
        else Dict.keys (Food._toppings self)
    | _ => Dict.keys (Food._toppings self)
    end.
Proof.
  destruct c as [topping| |]; cbn; [|done..]. unfold after.
  destruct (Dict.contains Food._valid_toppings topping) eqn:Hc; cbn.
  - destruct (add_topping_valid self topping Hc) as (price & _ & ->). cbn.
    rewrite keys_setitem. by destruct (Dict.contains (Food._toppings self) topping).
  - by rewrite (add_topping_invalid self topping Hc).
Qed.

Lemma step_toppings_elem c self topping :
  topping ∈ Dict.keys (Food._toppings (Food.step c self))
  ↔ topping ∈ Dict.keys (Food._toppings self)
    ∨ (c = Food.AddTopping topping ∧ topping ∈ Dict.keys Food._valid_toppings).
Proof.
  rewrite step_toppings. destruct c as [other| |]; [|naive_solver..].
  destruct (Dict.contains Food._valid_toppings other) eqn:Hv; cbn.
  - apply contains_keys in Hv.
    destruct (Dict.contains (Food._toppings self) other) eqn:Hs; cbn.
    + apply contains_keys in Hs. naive_solver.
    + rewrite elem_of_app, list_elem_of_singleton. naive_solver.
  - apply contains_false_keys in Hv. naive_solver.
Qed.

Lemma step_toppings_prefix c self :
  Dict.keys (Food._toppings self)
    `prefix_of` Dict.keys (Food._toppings (Food.step c self)).
Proof.
  rewrite step_toppings. destruct c as [topping| |]; [|done..].
  destruct (_ && _); [by apply prefix_app_r|done].
Qed.
End food_runs.

(** X5. [add_topping] with a name that is not in the topping table
    raises [ValueError("Invalid topping: ...")] and leaves the food, its
    toppings and its price as they were. *)
Theorem add_topping_invalid_unchanged (self : Food.t) (topping : string) :
  topping ∉ Dict.keys Food._valid_toppings →
  result (Food.add_topping topping) self
  = Raises (ValueError ("Invalid topping: " +:+ topping))
  ∧ after (Food.add_topping topping) self = self
  ∧ result Food.get_toppings (after (Food.add_topping topping) self)
    = result Food.get_toppings self
  ∧ result Food.get_price (after (Food.add_topping topping) self)
    = result Food.get_price self.
Proof.
  intros Hv%contains_false_keys. unfold result, after.
  by rewrite (add_topping_invalid self topping Hv).
Qed.

Lemma add_topping_invalid_unchanged_witness :
  let hotdog :=
    {| Food._food_item := "Hotdog"; Food._base_price := 2.30%float;
       Food._toppings := [] |} in
  result (Food.add_topping "InvalidTopping") hotdog
  = Raises (ValueError "Invalid topping: InvalidTopping")
  ∧ after (Food.add_topping "InvalidTopping") hotdog = hotdog.
Proof.
  intros hotdog.
  destruct (add_topping_invalid_unchanged hotdog "InvalidTopping") as (H1 & H2 & _).
  - decide_closed.
  - split; [exact H1 | exact H2].
Defined.

(** X6. [add_topping] with a topping of the table that the food does not
    have yet returns and puts the topping last, with the table's price:
    [get_toppings] lists the earlier toppings in their order and then
    the new one, the earlier prices are kept, and the item and the base
    price are untouched. *)
Theorem add_topping_fresh (self : Food.t) (topping : string) (price : float) :
  Dict.getitem Food._valid_toppings topping = Returns price →
  topping ∉ Dict.keys (Food._toppings self) →
  let self' := after (Food.add_topping topping) self in
  result (Food.add_topping topping) self = Returns ()
  ∧ Food._toppings self' = Food._toppings self ++ [(topping, price)]
  ∧ result Food.get_toppings self'
    = (toppings ← result Food.get_toppings self; Returns (toppings ++ [topping]))
  ∧ Dict.getitem (Food._toppings self') topping = Returns price
  ∧ Food._food_item self' = Food._food_item self
  ∧ Food._base_price self' = Food._base_price self.
Proof.
  intros Hprice Hnew%contains_false_keys self'. subst self'.
  pose proof (getitem_contains _ _ _ Hprice) as Hv.
  destruct (add_topping_valid self topping Hv) as (price' & Hprice' & Hadd).
  rewrite Hprice in Hprice'. injection Hprice' as <-.
  unfold result, after. rewrite Hadd. cbn.
  rewrite (setitem_fresh _ _ _ Hnew).
  split; [done|]. split; [done|]. split.
  { unfold Food.get_toppings. run_method. unfold Dict.keys. by rewrite fmap_app. }
  split; [|done].
  rewrite <-(setitem_fresh _ _ _ Hnew). apply getitem_setitem.
Qed.

Lemma add_topping_fresh_witness :
  let chili_dog :=
    {| Food._food_item := "Hotdog"; Food._base_price := 2.30%float;
       Food._toppings := [("Chili"%string, 0.60%float)] |} in
  result (Food.add_topping "Mustard") chili_dog = Returns ()
  ∧ result Food.get_toppings (after (Food.add_topping "Mustard") chili_dog)
    = Returns ["Chili"; "Mustard"]%string.
Proof.
  intros chili_dog.
  destruct (add_topping_fresh chili_dog "Mustard" 0.00%float) as (H1 & _ & H2 & _).
  - reflexivity.
  - decide_closed.
  - split; [exact H1 | exact H2].
Defined.

(** X7. The toppings of a food after any sequence of calls are the ones
    it had before together with the toppings of the table that
    [add_topping] was called with; raising calls and calls of the other
    methods add nothing. *)
Theorem toppings_after_calls (calls : list Food.call) (self : Food.t) (topping : string) :
  ∃ toppings,
    result Food.get_toppings (Food.run calls self) = Returns toppings
    ∧ (topping ∈ toppings
       ↔ topping ∈ Dict.keys (Food._toppings self)
         ∨ (Food.AddTopping topping ∈ calls
            ∧ topping ∈ Dict.keys Food._valid_toppings)).
Proof.
  eexists. split; [reflexivity|].
  revert self. induction calls as [|c calls IH]; intros self.
  - simpl. rewrite elem_of_nil. naive_solver.
  - rewrite food_run_cons, IH, step_toppings_elem, elem_of_cons. naive_solver.
Qed.

(** X8. No call removes a topping or moves one: what [get_toppings]
    listed before a sequence of calls is the beginning of what it lists
    afterwards. *)
Theorem toppings_only_grow (calls : list Food.call) (self : Food.t) :
  ∃ before afterwards,
    result Food.get_toppings self = Returns before
    ∧ result Food.get_toppings (Food.run calls self) = Returns afterwards
    ∧ before `prefix_of` afterwards.
Proof.
  eexists _, _. split; [reflexivity|]. split; [reflexivity|].
  revert self. induction calls as [|c calls IH]; intros self; [done|].
  rewrite food_run_cons. etrans; [apply (step_toppings_prefix c)|apply IH].
Qed.

(** X9. A food a program can hold never lists more than nine toppings. *)
Theorem toppings_at_most_nine (self : Food.t) :
  Food.reachable self →
  ∃ toppings,
    result Food.get_toppings self = Returns toppings ∧ (length toppings ≤ 9)%nat.
Proof.
  intros (_ & Hnd & Hall)%reachable_food_invariant.
  eexists. split; [reflexivity|].
  change 9%nat with (length (Dict.keys Food._valid_toppings)).
  apply submseteq_length, NoDup_submseteq; [exact Hnd|].
  intros topping Hin. unfold Dict.keys in Hin.
  apply list_elem_of_fmap in Hin as ([k v] & -> & Hin).
  rewrite Forall_forall in Hall.
  by apply Hall, getitem_contains, contains_keys in Hin.
Qed.

Lemma toppings_at_most_nine_witness :
  ∃ toppings,
    result Food.get_toppings
      {| Food._food_item := "Ice Cream"; Food._base_price := 3.00%float;
         Food._toppings := [("Cherry"%string, 0.00%float)] |}
    = Returns toppings
    ∧ (length toppings ≤ 9)%nat.
Proof.
  apply toppings_at_most_nine.
  apply (Food.reachable_call (Food.AddTopping "Cherry")
           {| Food._food_item := "Ice Cream"; Food._base_price := 3.00%float;
              Food._toppings := [] |}).
  apply (Food.reachable_new "Ice Cream"). reflexivity.
Defined.

(** X10. A new food costs exactly the menu price of its item, and with
    one topping exactly the floating-point sum of the menu price and the
    topping's table price, for every item of the menu and every topping
    of the table. *)
Theorem price_with_one_topping (food_item topping : string) (base price : float) :
  (food_item, base) ∈ Food._valid_food_items →
  (topping, price) ∈ Food._valid_toppings →
  (food ← Food.__init__ food_item; result Food.get_price food) = Returns base
  ∧ (food ← Food.__init__ food_item;
     result (Food.add_topping topping ;; Food.get_price) food)
    = Returns (base + price)%float.
Proof.
  unfold Food._valid_food_items, Food._valid_toppings. intros Hitem Htopping.
  repeat (apply elem_of_cons in Hitem as [Hitem|Hitem]);
    try (by apply elem_of_nil in Hitem); injection Hitem as -> ->;
    repeat (apply elem_of_cons in Htopping as [Htopping|Htopping]);
    try (by apply elem_of_nil in Htopping); injection Htopping as -> ->;
    split; vm_compute; reflexivity.
Qed.

Lemma price_with_one_topping_witness :
  (food ← Food.__init__ "Tater Tots"; result Food.get_price food) = Returns 1.70%float
  ∧ (food ← Food.__init__ "Tater Tots";
     result (Food.add_topping "Bacon Bits" ;; Food.get_price) food)
    = Returns (1.70 + 0.30)%float.
Proof.
  apply (price_with_one_topping "Tater Tots" "Bacon Bits" 1.70%float 0.30%float).
  - do 5 apply list_elem_of_further. apply list_elem_of_here.
  - do 6 apply list_elem_of_further. apply list_elem_of_here.
Defined.

(** ** Orders *)
Section order_runs.
Implicit Types (self : Order.t) (it : Order.item).

Lemma add_items_items (its : list Order.item) self :
  Order._items (Order.add_items its self) = Order._items self ++ its.
Proof.
  revert self. induction its as [|it its IH]; intros self.
  - simpl. by rewrite app_nil_r.
  - change (Order.add_items (it :: its) self)
      with (Order.add_items its (after (Order.add_item it) self)).
    rewrite IH. simpl. by rewrite <-app_assoc.
Qed.

Lemma omap_charge_delete (items : list Order.item) (i : nat) (o : object) :
  items !! i = Some (Order.Other o) →
  omap Order.charge (delete i items) = omap Order.charge items.
Proof.
  revert i. induction items as [|it items IH]; intros [|i] Hi; try done.
  - simpl in Hi. injection Hi as ->. done.
  - change (omap Order.charge ([it] ++ delete i items)
            = omap Order.charge ([it] ++ items)).
    by rewrite !omap_app, (IH i Hi).
Qed.
End order_runs.

(** X11. Adding an item and then removing the last position gives the
    order back as it was, for every order and every item; neither call
    raises. *)
Theorem add_then_remove_last (self : Order.t) (it : Order.item) :
  (Order.add_item it ;;
   Order.remove_item (Z.of_nat (length (Order._items self)))) self
  = (Returns (), self).
Proof.
  unfold Order.add_item, mbind at 1, method_bind, assign.
  rewrite remove_item_in_range.
  - simpl. rewrite Nat2Z.id. rewrite delete_middle, app_nil_r. by destruct self.
  - simpl. rewrite length_app. simpl. lia.
Qed.

(** X12. [add_item] keeps the order of arrival: after adding a list of
    items one by one, the order holds its earlier items followed by the
    added ones in the same order, and [get_num_items] has grown by their
    number. *)
Theorem add_items_in_order (its : list Order.item) (self : Order.t) :
  Order._items (Order.add_items its self) = Order._items self ++ its
  ∧ result Order.get_num_items (Order.add_items its self)
    = (n ← result Order.get_num_items self; Returns (n + length its)%nat)
  ∧ result Order.get_total (Order.add_items its Order.__init__)
    = Returns (sum (omap Order.charge its)).
Proof.
  split; [apply add_items_items|]. split.
  - unfold Order.get_num_items. run_method.
    by rewrite add_items_items, length_app.
  - unfold result. rewrite get_total_charges. cbn.
    by rewrite add_items_items.
Qed.

(** X13. Removing an item that is neither a drink nor a food returns and
    leaves [get_total] as it was, wherever the item stands in the
    order. *)
Theorem remove_other_keeps_total (self : Order.t) (index : Z) (o : object) :
  0 ≤ index →
  Order._items self !! Z.to_nat index = Some (Order.Other o) →
  result (Order.remove_item index) self = Returns ()
  ∧ result Order.get_total (after (Order.remove_item index) self)
    = result Order.get_total self.
Proof.
  intros Hpos Hlookup.
  pose proof (lookup_lt_Some _ _ _ Hlookup) as Hlt.
  unfold result, after. rewrite remove_item_in_range by lia. cbn [fst snd].
  split; [done|]. rewrite !get_total_charges. cbn [fst Order._items].
  by rewrite (omap_charge_delete _ _ _ Hlookup).
Qed.

Lemma remove_other_keeps_total_witness :
  let order := {| Order._items :=
    [Order.ADrink Drink.__init__; Order.Other PyNone; Order.ADrink Drink.__init__] |} in
  result (Order.remove_item 1) order = Returns ()
  ∧ result Order.get_total (after (Order.remove_item 1) order)
    = result Order.get_total order.
Proof.
  intros order. apply (remove_other_keeps_total order 1 PyNone).
  - lia.
  - reflexivity.
Defined.
